(** * agent_runner.py: the Strands GitHub agent runner

    A shallow embedding of [.github/scripts/python/agent_runner.py].
    The script reads two environment inputs, builds a fixed tool list, a
    Bedrock model and an agent, and invokes the agent once.  The
    collaborators the script calls ([botocore.config.Config],
    [BedrockModel], [Agent], the agent invocation) are modelled as
    oracles of a [World]; what the script itself does (console output,
    constructor calls with their arguments, the invocation) is recorded
    as a trace of events. *)

From Stdlib Require Import ZArith NArith Ascii String List Lia.
From stdpp Require Import base option list strings gmap.

Set Warnings "-register-all".
Local Open Scope Z_scope.

(** ** Python values *)

(** A Python [str] is a sequence of Unicode code points; slicing counts
    code points, so the emoji of the log lines are one element each. *)
Abbreviation str := (list N) (only parsing).

(** An ASCII literal as a [str]. *)
Definition lit (s : string) : str :=
  List.map N_of_ascii (list_ascii_of_string s).

(** [s[:n]] *)
Definition slice_to (n : nat) (s : str) : str := take n s.

(** ["c" * n] *)
Definition str_mul (s : str) (n : nat) : str := concat (replicate n s).

(** The values the script builds as literals or receives from its
    collaborators.  A [dict] literal keeps its insertion order. *)
Inductive pyval : Type :=
| VNone
| VInt (z : Z)
| VStr (s : str)
| VList (l : list pyval)
| VDict (d : list (string * pyval))
| VObj (id : N).

(** [d[k]] / [d.get(k)] on a dict value: the first binding of the key. *)
Fixpoint assoc (k : string) (d : list (string * pyval)) : option pyval :=
  match d with
  | [] => None
  | (k', v) :: d' => if String.eqb k k' then Some v else assoc k d'
  end.

Definition dict_get (k : string) (v : pyval) : option pyval :=
  match v with
  | VDict d => assoc k d
  | _ => None
  end.

(** ** Exceptions *)

(** The classes that matter to [except Exception]: the three built-in
    classes that derive from [BaseException] directly, and everything
    below [Exception]. *)
Inductive exc_class : Type :=
| KeyboardInterrupt
| SystemExit
| GeneratorExit
| ExceptionSubclass (name : string).

(** An exception object: its class and what [str(e)] gives. *)
Record BaseException : Type := mkExc {
  exc_cls : exc_class;
  exc_str : str
}.

(** [isinstance(e, Exception)] *)
Definition isinstance_Exception (e : BaseException) : bool :=
  match exc_cls e with
  | ExceptionSubclass _ => true
  | _ => false
  end.

(** ** Module constants (lines 35-40) *)

Definition STRANDS_MODEL_ID : str := lit "anthropic.claude-opus-4-20250514-v1:0".
Definition STRANDS_MAX_TOKENS : Z := 64000.
Definition STRANDS_BUDGET_TOKENS : Z := 8000.
Definition STRANDS_REGION : str := lit "ap-northeast-1".

Definition DEFAULT_SYSTEM_PROMPT : str := lit "You are an autonomous GitHub agent.".

(** ** Tools (imports, lines 14-33) *)

Inductive tool : Type :=
| str_replace_based_edit_tool
| shell
| http_request
| create_issue
| get_issue
| update_issue
| list_issues
| add_issue_comment
| get_issue_comments
| create_pull_request
| get_pull_request
| update_pull_request
| list_pull_requests
| get_pr_review_and_comments
| reply_to_review_comment
| notebook
| handoff_to_user.

#[global] Instance tool_eq_dec : EqDecision tool.
Proof. solve_decision. Defined.

(** The module each tool is imported from. *)
Inductive pymodule : Type :=
| mod_strands_tools
| mod_github_tools
| mod_str_replace_based_edit_tool
| mod_notebook
| mod_handoff_to_user.

Definition imported_from (t : tool) : pymodule :=
  match t with
  | http_request | shell => mod_strands_tools
  | str_replace_based_edit_tool => mod_str_replace_based_edit_tool
  | notebook => mod_notebook
  | handoff_to_user => mod_handoff_to_user
  | _ => mod_github_tools
  end.

(** ** Collaborator objects *)

(** [botocore.config.Config(read_timeout=, connect_timeout=, retries=)] *)
Record Config : Type := mkConfig {
  read_timeout : Z;
  connect_timeout : Z;
  retries : pyval
}.

(** [BedrockModel(model_id=, max_tokens=, region_name=,
    boto_client_config=, additional_request_fields=)] *)
Record BedrockModel : Type := mkBedrockModel {
  model_id : str;
  max_tokens : Z;
  region_name : str;
  boto_client_config : Config;
  additional_request_fields : pyval
}.

(** [Agent(model=, system_prompt=, tools=)] *)
Record Agent : Type := mkAgent {
  model : BedrockModel;
  system_prompt : str;
  tools : list tool
}.

(** ** Effects *)

(** What a run does that the outside can observe, in program order. *)
Inductive event : Type :=
| Print (line : str)
| Config_init (c : Config)
| BedrockModel_init (m : BedrockModel)
| Agent_init (a : Agent)
| Agent_call (a : Agent) (query : str).

Inductive outcome (A : Type) : Type :=
| Returned (a : A)
| Raised (e : BaseException).
Arguments Returned {A} a.
Arguments Raised {A} e.

(** A computation: how it ends and the events it emitted. *)
Definition M (A : Type) : Type := outcome A * list event.

Definition ret {A} (a : A) : M A := (Returned a, []).

Definition bind {A B} (m : M A) (k : A -> M B) : M B :=
  match m with
  | (Returned a, t) => let '(o, t') := k a in (o, t ++ t')
  | (Raised e, t) => (Raised e, t)
  end.

Definition emit (ev : event) : M unit := (Returned tt, [ev]).

Definition print (line : str) : M unit := emit (Print line).

(** [try: body  except Exception as e: handler e].  Only instances of
    [Exception] are caught; any other exception leaves the statement
    untouched. *)
Definition try_except_Exception {A} (body : M A)
    (handler : BaseException -> M A) : M A :=
  match body with
  | (Returned a, t) => (Returned a, t)
  | (Raised e, t) =>
      if isinstance_Exception e
      then let '(o, t') := handler e in (o, t ++ t')
      else (Raised e, t)
  end.

(** A bare [raise] inside the handler of [e]. *)
Definition reraise {A} (e : BaseException) : M A := (Raised e, []).

Declare Scope py_scope.
Delimit Scope py_scope with py.
Notation "x <- m ;; k" := (bind m (fun x => k))
  (at level 100, m at next level, right associativity) : py_scope.
Notation "m ;;; k" := (bind m (fun _ => k))
  (at level 100, right associativity) : py_scope.

Definition outcome_of {A} (m : M A) : outcome A := fst m.
Definition trace_of {A} (m : M A) : list event := snd m.

(** ** The outside world *)

(** What the collaborators answer.  Each is called at most once in a
    run, so a function of the arguments loses nothing.  A constructor
    either builds its object ([None]) or raises. *)
Record World : Type := mkWorld {
  Config_raises : Config -> option BaseException;
  BedrockModel_raises : BedrockModel -> option BaseException;
  Agent_raises : Agent -> option BaseException;
  Agent_result : Agent -> str -> outcome pyval
}.

(** [os.getenv(key, default)] over the process environment. *)
Definition os_getenv (env : gmap string str) (key : string) (default : str)
    : str :=
  match env !! key with
  | Some v => v
  | None => default
  end.

(** A constructor call: the event, then the object or the exception. *)
Definition construct {A} (ev : A -> event) (raises : A -> option BaseException)
    (a : A) : M A :=
  (emit (ev a) ;;;
   match raises a with
   | None => ret a
   | Some e => (Raised e, [])
   end)%py.

(** [agent(query)] *)
Definition invoke (w : World) (a : Agent) (query : str) : M pyval :=
  (Agent_result w a query, [Agent_call a query]).

(** ** The script *)

(** Lines 43-62. *)
Definition _get_all_tools : M (list tool) :=
  ret [ str_replace_based_edit_tool;
        shell;
        http_request;
        create_issue;
        get_issue;
        update_issue;
        list_issues;
        add_issue_comment;
        get_issue_comments;
        create_pull_request;
        get_pull_request;
        update_pull_request;
        list_pull_requests;
        get_pr_review_and_comments;
        reply_to_review_comment;
        notebook;
        handoff_to_user ].

(** The log lines, as the f-strings build them. *)
Definition line_running (query : str) : str :=
  [0x1F916%N] ++ lit " Running agent with query: " ++ slice_to 100 query ++ lit "...".
Definition line_completed : str :=
  [0x2705%N] ++ lit " Agent completed successfully".
Definition line_error (e : BaseException) : str :=
  [0x274C%N] ++ lit " Error running agent: " ++ exc_str e.
Definition line_no_task : str :=
  [0x274C%N] ++ lit " No task prompt provided".
Definition line_rule : str := str_mul (lit "=") 60.
Definition line_starting : str :=
  [0x1F680%N] ++ lit " Starting Strands Agent".
Definition line_model : str := lit "Model: " ++ STRANDS_MODEL_ID.
Definition line_region : str := lit "Region: " ++ STRANDS_REGION.
Definition line_task (task_prompt : str) : str :=
  lit "Task: " ++ slice_to 200 task_prompt ++ lit "...".

(** Lines 65-105. *)
Definition run_agent (w : World) (env : gmap string str) (query : str)
    : M pyval :=
  try_except_Exception
    (tools <- _get_all_tools ;;
     let additional_request_fields :=
       VDict [ ("anthropic_beta"%string,
                 VList [VStr (lit "interleaved-thinking-2025-05-14")]);
               ("thinking"%string,
                 VDict [ ("type"%string, VStr (lit "enabled"));
                         ("budget_tokens"%string, VInt STRANDS_BUDGET_TOKENS) ]) ] in
     config <- construct Config_init (Config_raises w)
       {| read_timeout := 900;
          connect_timeout := 900;
          retries := VDict [ ("max_attempts"%string, VInt 3);
                             ("mode"%string, VStr (lit "adaptive")) ] |} ;;
     model <- construct BedrockModel_init (BedrockModel_raises w)
       {| model_id := STRANDS_MODEL_ID;
          max_tokens := STRANDS_MAX_TOKENS;
          region_name := STRANDS_REGION;
          boto_client_config := config;
          additional_request_fields := additional_request_fields |} ;;
     let system_prompt := os_getenv env "INPUT_SYSTEM_PROMPT" DEFAULT_SYSTEM_PROMPT in
     agent <- construct Agent_init (Agent_raises w)
       {| model := model;
          system_prompt := system_prompt;
          tools := tools |} ;;
     print (line_running query) ;;;
     result <- invoke w agent query ;;
     print line_completed ;;;
     ret result)%py
    (fun e =>
       (print (line_error e) ;;;
        reraise e)%py).

(** Lines 108-122.  [not task_prompt] holds exactly of the empty
    string; a function that ends without [return <value>] gives [None]. *)
Definition main (w : World) (env : gmap string str) : M pyval :=
  let task_prompt := os_getenv env "INPUT_TASK_PROMPT" [] in
  match task_prompt with
  | [] =>
      (print line_no_task ;;;
       ret VNone)%py
  | _ :: _ =>
      (print line_rule ;;;
       print line_starting ;;;
       print line_rule ;;;
       print line_model ;;;
       print line_region ;;;
       print (line_task task_prompt) ;;;
       print line_rule ;;;
       _ <- run_agent w env task_prompt ;;
       ret VNone)%py
  end.

(** ** Reading a trace *)

(** Console output, in order. *)
Definition stdout (t : list event) : list str :=
  omap (fun ev => match ev with Print l => Some l | _ => None end) t.

(** The arguments of each constructor call and of each invocation. *)
Definition configs_built (t : list event) : list Config :=
  omap (fun ev => match ev with Config_init c => Some c | _ => None end) t.
Definition models_built (t : list event) : list BedrockModel :=
  omap (fun ev => match ev with BedrockModel_init m => Some m | _ => None end) t.
Definition agents_built (t : list event) : list Agent :=
  omap (fun ev => match ev with Agent_init a => Some a | _ => None end) t.
Definition invocations (t : list event) : list (Agent * str) :=
  omap (fun ev => match ev with Agent_call a q => Some (a, q) | _ => None end) t.

(** The objects [run_agent] hands to the constructors. *)
Definition built_config : Config :=
  {| read_timeout := 900;
     connect_timeout := 900;
     retries := VDict [ ("max_attempts"%string, VInt 3);
                        ("mode"%string, VStr (lit "adaptive")) ] |}.

Definition built_model : BedrockModel :=
  {| model_id := STRANDS_MODEL_ID;
     max_tokens := STRANDS_MAX_TOKENS;
     region_name := STRANDS_REGION;
     boto_client_config := built_config;
     additional_request_fields :=
       VDict [ ("anthropic_beta"%string,
                 VList [VStr (lit "interleaved-thinking-2025-05-14")]);
               ("thinking"%string,
                 VDict [ ("type"%string, VStr (lit "enabled"));
                         ("budget_tokens"%string, VInt 8000) ]) ] |}.

Definition built_agent (env : gmap string str) : Agent :=
  {| model := built_model;
     system_prompt := os_getenv env "INPUT_SYSTEM_PROMPT" DEFAULT_SYSTEM_PROMPT;
     tools := [ str_replace_based_edit_tool; shell; http_request;
                create_issue; get_issue; update_issue; list_issues;
                add_issue_comment; get_issue_comments;
                create_pull_request; get_pull_request; update_pull_request;
                list_pull_requests; get_pr_review_and_comments;
                reply_to_review_comment; notebook; handoff_to_user ] |}.

(** The reasoning budget and the beta flags a model was built with. *)
Definition thinking_budget (m : BedrockModel) : option pyval :=
  dict_get "thinking" (additional_request_fields m) ≫= dict_get "budget_tokens".
Definition anthropic_beta (m : BedrockModel) : option pyval :=
  dict_get "anthropic_beta" (additional_request_fields m).

(** The banner [main] prints before it runs the agent. *)
Definition banner (task_prompt : str) : list event :=
  [ Print line_rule; Print line_starting; Print line_rule;
    Print line_model; Print line_region; Print (line_task task_prompt);
    Print line_rule ].

(** How the [try] statement of [run_agent] ends once an exception [e]
    left its body after the events [t]. *)
Definition failed (t : list event) (e : BaseException) : M pyval :=
  if isinstance_Exception e
  then (Raised e, t ++ [Print (line_error e)])
  else (Raised e, t).

(** ** Sample worlds *)

(** Every constructor succeeds and the agent answers [r]. *)
Definition world_answering (r : outcome pyval) : World :=
  {| Config_raises := fun _ => None;
     BedrockModel_raises := fun _ => None;
     Agent_raises := fun _ => None;
     Agent_result := fun _ _ => r |}.

Definition interrupt : BaseException :=
  {| exc_cls := KeyboardInterrupt; exc_str := [] |}.
Definition throttled : BaseException :=
  {| exc_cls := ExceptionSubclass "ClientError";
     exc_str := lit "ThrottlingException" |}.

Definition env_of (task : str) : gmap string str :=
  {[ "INPUT_TASK_PROMPT"%string := task ]}.

(** A whitespace-only task, longer than either log truncation. *)
Definition blank_task : str := replicate 250 32%N.

(** An environment that overrides the system prompt. *)
Definition env_with_prompt : gmap string str :=
  {[ "INPUT_SYSTEM_PROMPT"%string := lit "Review pull requests only." ]}.

(** The [Config] constructor rejects its arguments. *)
Definition world_rejecting_config (e : BaseException) : World :=
  {| Config_raises := fun _ => Some e;
     BedrockModel_raises := fun _ => None;
     Agent_raises := fun _ => None;
     Agent_result := fun _ _ => Returned VNone |}.

Definition bad_config : BaseException :=
  {| exc_cls := ExceptionSubclass "TypeError";
     exc_str := lit "Got unexpected keyword argument" |}.

(** Two environments that differ in a variable named like one of the
    module constants; the script has no such override. *)
Definition env_ci : gmap string str :=
  {[ "INPUT_TASK_PROMPT"%string := lit "triage";
     "INPUT_SYSTEM_PROMPT"%string := lit "Review pull requests only." ]}.
Definition env_ci_extra : gmap string str :=
  <[ "STRANDS_REGION"%string := lit "us-east-1" ]> env_ci.

(** The collaborators of two runs answer alike. *)
Definition same_answers (w1 w2 : World) : Prop :=
  (∀ c, Config_raises w1 c = Config_raises w2 c)
  ∧ (∀ m, BedrockModel_raises w1 m = BedrockModel_raises w2 m)
  ∧ (∀ a, Agent_raises w1 a = Agent_raises w2 a)
  ∧ (∀ a q, Agent_result w1 a q = Agent_result w2 a q).

(** * Properties *)

Section RunAgent.
Variable w : World.
Variable env : gmap string str.
Variable query : str.

(** [run_agent] unfolded along the answers of the collaborators. *)
Lemma run_agent_cases :
  run_agent w env query =
  match Config_raises w built_config with
  | Some e => failed [Config_init built_config] e
  | None =>
    match BedrockModel_raises w built_model with
    | Some e =>
        failed [Config_init built_config; BedrockModel_init built_model] e
    | None =>
      let a := built_agent env in
      match Agent_raises w a with
      | Some e =>
          failed [Config_init built_config; BedrockModel_init built_model;
                  Agent_init a] e
      | None =>
        match Agent_result w a query with
        | Returned v =>
            (Returned v,
             [Config_init built_config; BedrockModel_init built_model;
              Agent_init a; Print (line_running query); Agent_call a query;
              Print line_completed])
        | Raised e =>
            failed [Config_init built_config; BedrockModel_init built_model;
                    Agent_init a; Print (line_running query);
                    Agent_call a query] e
        end
      end
    end
  end.
Proof.
  unfold run_agent, construct, invoke, failed, try_except_Exception.
  change (mkConfig 900 900 _) with built_config.
  cbn [_get_all_tools ret bind emit app].
  destruct (Config_raises w built_config) as [e|]; cbn.
  { now destruct (isinstance_Exception e). }
  change (mkBedrockModel _ _ _ _ _) with built_model.
  destruct (BedrockModel_raises w built_model) as [e|]; cbn.
  { now destruct (isinstance_Exception e). }
  change (mkAgent _ _ _) with (built_agent env).
  destruct (Agent_raises w (built_agent env)) as [e|]; cbn.
  { now destruct (isinstance_Exception e). }
  destruct (Agent_result w (built_agent env) query) as [v|e]; cbn.
  - reflexivity.
  - now destruct (isinstance_Exception e).
Qed.

(** [run_agent] invokes the agent at most once, on the agent it built
    and with the query it was given. *)
Lemma run_agent_invocations :
  invocations (trace_of (run_agent w env query)) = [] ∨
  invocations (trace_of (run_agent w env query)) = [(built_agent env, query)].
Proof.
  rewrite run_agent_cases; unfold failed; repeat case_match; cbn; auto.
Qed.

(** It builds at most one agent and at most one model, and calls the
    [Config] constructor once. *)
Lemma agents_built_run_agent :
  agents_built (trace_of (run_agent w env query)) = [] ∨
  agents_built (trace_of (run_agent w env query)) = [built_agent env].
Proof.
  rewrite run_agent_cases; unfold failed; repeat case_match; cbn; auto.
Qed.

Lemma models_built_run_agent :
  models_built (trace_of (run_agent w env query)) = [] ∨
  models_built (trace_of (run_agent w env query)) = [built_model].
Proof.
  rewrite run_agent_cases; unfold failed; repeat case_match; cbn; auto.
Qed.


End RunAgent.

(** Splits a goal about [run_agent w env q] along the answers of the
    collaborators and evaluates the trace in each case. *)
Ltac split_run_agent w env q :=
  rewrite ?(run_agent_cases w env q); unfold failed;
  destruct (Config_raises w built_config) as [?e|] eqn:?;
  [ destruct (isinstance_Exception e) eqn:?
  | destruct (BedrockModel_raises w built_model) as [?e|] eqn:?;
    [ destruct (isinstance_Exception e) eqn:?
    | cbv zeta;
      destruct (Agent_raises w (built_agent env)) as [?e|] eqn:?;
      [ destruct (isinstance_Exception e) eqn:?
      | destruct (Agent_result w (built_agent env) q) as [?v|?e] eqn:?;
        [ | destruct (isinstance_Exception e) eqn:? ] ] ] ];
  cbn [outcome_of trace_of fst snd].

(** [main] on a non-empty task: the banner, then [run_agent] on the
    task; the value [run_agent] returns is dropped. *)
Lemma main_with_task (w : World) (env : gmap string str) (task : str) :
  env !! "INPUT_TASK_PROMPT"%string = Some task → task ≠ [] →
  main w env =
  (match outcome_of (run_agent w env task) with
   | Returned _ => Returned VNone
   | Raised e => Raised e
   end, banner task ++ trace_of (run_agent w env task)).
Proof.
  intros Hget Hne. unfold main, os_getenv. rewrite Hget.
  destruct task as [|c task]; [done|].
  destruct (run_agent w env (c :: task)) as [[v|e] t]; cbn.
  - now rewrite app_nil_r.
  - reflexivity.
Qed.

Lemma stdout_app (t1 t2 : list event) :
  stdout (t1 ++ t2) = stdout t1 ++ stdout t2.
Proof. apply omap_app. Qed.

Lemma invocations_app (t1 t2 : list event) :
  invocations (t1 ++ t2) = invocations t1 ++ invocations t2.
Proof. apply omap_app. Qed.

Lemma invocations_banner (task : str) : invocations (banner task) = [].
Proof. reflexivity. Qed.



(** C10. For every non-empty [INPUT_TASK_PROMPT], whitespace-only ones
    included, [main] prints its banner and then runs [run_agent] once on
    the task string: every invocation of the agent in the run receives
    the whole task string as its query, there is at most one, and there
    is exactly one when no constructor raises.  The 200 and 100
    character cuts appear in the printed lines only. *)
Theorem main_runs_agent_on_whole_task
    (w : World) (env : gmap string str) (task : str) :
  env !! "INPUT_TASK_PROMPT"%string = Some task → task ≠ [] →
  trace_of (main w env) = banner task ++ trace_of (run_agent w env task)
  ∧ Forall (λ call, call.2 = task) (invocations (trace_of (main w env)))
  ∧ (length (invocations (trace_of (main w env))) ≤ 1)%nat
  ∧ (Config_raises w built_config = None →
     BedrockModel_raises w built_model = None →
     Agent_raises w (built_agent env) = None →
     invocations (trace_of (main w env)) = [(built_agent env, task)]
     ∧ stdout (trace_of (main w env)) !! 5%nat
       = Some (lit "Task: " ++ take 200 task ++ lit "...")
     ∧ stdout (trace_of (main w env)) !! 7%nat
       = Some ([0x1F916%N] ++ lit " Running agent with query: "
                 ++ take 100 task ++ lit "...")).
Proof.
  intros Hget Hne. rewrite (main_with_task w env task Hget Hne).
  cbn [trace_of snd]. rewrite invocations_app, invocations_banner, app_nil_l.
  split; [reflexivity|].
  split; [|split].
  - destruct (run_agent_invocations w env task) as [-> | ->];
      repeat constructor.
  - destruct (run_agent_invocations w env task) as [-> | ->]; cbn; lia.
  - intros Hc Hm Ha. rewrite stdout_app, run_agent_cases, Hc, Hm. cbv zeta.
    rewrite Ha. unfold failed.
    destruct (Agent_result w (built_agent env) task) as [v|e];
      [|destruct (isinstance_Exception e)]; repeat split.
Qed.

Lemma main_runs_agent_on_whole_task_witness :
  env_of blank_task !! "INPUT_TASK_PROMPT"%string = Some blank_task
  ∧ blank_task ≠ []
  ∧ invocations
      (trace_of (main (world_answering (Returned (VStr (lit "done"))))
                      (env_of blank_task)))
    = [(built_agent (env_of blank_task), blank_task)]
  ∧ stdout
      (trace_of (main (world_answering (Returned (VStr (lit "done"))))
                      (env_of blank_task))) !! 5%nat
    = Some (lit "Task: " ++ replicate 200 32%N ++ lit "...").
Proof.
  split; [reflexivity|]. split; [discriminate|].
  pose proof (main_runs_agent_on_whole_task
                (world_answering (Returned (VStr (lit "done"))))
                (env_of blank_task) blank_task eq_refl
                ltac:(discriminate)) as (_ & _ & _ & H).
  destruct H as (Hcall & Hline & _); [reflexivity..|].
  split; [exact Hcall | exact Hline].
Defined.

(** C6. The agent is constructed with the value of
    [INPUT_SYSTEM_PROMPT] as its system prompt when the variable is set,
    and with "You are an autonomous GitHub agent." when it is not; the
    agent that is invoked is that agent.  The constructor is reached
    whenever the two constructors before it do not raise. *)
Theorem system_prompt_from_env
    (w : World) (env : gmap string str) (query : str) :
  let t := trace_of (run_agent w env query) in
  (∀ s, env !! "INPUT_SYSTEM_PROMPT"%string = Some s →
        Forall (λ a, system_prompt a = s) (agents_built t)
        ∧ Forall (λ call, system_prompt call.1 = s) (invocations t))
  ∧ (env !! "INPUT_SYSTEM_PROMPT"%string = None →
        Forall (λ a, system_prompt a = lit "You are an autonomous GitHub agent.")
               (agents_built t)
        ∧ Forall (λ call, system_prompt call.1
                          = lit "You are an autonomous GitHub agent.")
                 (invocations t))
  ∧ (Config_raises w built_config = None →
     BedrockModel_raises w built_model = None →
     length (agents_built t) = 1%nat).
Proof.
  intros t. subst t.
  assert (Hsp : ∀ s, os_getenv env "INPUT_SYSTEM_PROMPT" DEFAULT_SYSTEM_PROMPT = s →
            Forall (λ a, system_prompt a = s)
                   (agents_built (trace_of (run_agent w env query)))
            ∧ Forall (λ call, system_prompt call.1 = s)
                     (invocations (trace_of (run_agent w env query)))).
  { intros s Hs. split.
    - destruct (agents_built_run_agent w env query) as [-> | ->];
        repeat constructor; exact Hs.
    - destruct (run_agent_invocations w env query) as [-> | ->];
        repeat constructor; exact Hs. }
  split; [|split].
  - intros s Hs. apply Hsp. unfold os_getenv. now rewrite Hs.
  - intros Hs. apply Hsp. unfold os_getenv. now rewrite Hs.
  - intros Hc Hm. rewrite run_agent_cases, Hc, Hm. cbv zeta. unfold failed.
    destruct (Agent_raises w (built_agent env)) as [e|];
      [destruct (isinstance_Exception e); reflexivity|].
    destruct (Agent_result w (built_agent env) query) as [v|e];
      [|destruct (isinstance_Exception e)]; reflexivity.
Qed.

Lemma system_prompt_from_env_witness :
  env_with_prompt !! "INPUT_SYSTEM_PROMPT"%string
    = Some (lit "Review pull requests only.")
  ∧ Forall (λ a, system_prompt a = lit "Review pull requests only.")
      (agents_built
         (trace_of (run_agent (world_answering (Returned VNone))
                              env_with_prompt (lit "triage"))))
  ∧ length
      (agents_built
         (trace_of (run_agent (world_answering (Returned VNone))
                              env_with_prompt (lit "triage")))) = 1%nat.
Proof.
  split; [reflexivity|].
  pose proof (system_prompt_from_env (world_answering (Returned VNone))
                env_with_prompt (lit "triage")) as (Hset & _ & Hlen).
  split.
  - exact (proj1 (Hset _ eq_refl)).
  - exact (Hlen eq_refl eq_refl).
Defined.

(** The default applies when the variable is absent. *)
Example system_prompt_default :
  map system_prompt
    (agents_built (trace_of (run_agent (world_answering (Returned VNone))
                                       ∅ (lit "triage"))))
  = [lit "You are an autonomous GitHub agent."].
Proof. reflexivity. Qed.

(** A variable set to the empty string is set: the prompt is empty. *)
Example system_prompt_empty :
  map system_prompt
    (agents_built (trace_of (run_agent (world_answering (Returned VNone))
                                       {[ "INPUT_SYSTEM_PROMPT"%string := [] ]}
                                       (lit "triage"))))
  = [[]].
Proof. reflexivity. Qed.

(** C7. [_get_all_tools] returns, without any effect and whatever the
    world, the environment or the query, the same 17 tools in the same
    order: the file editor, [shell], [http_request], the 12 operations
    imported from [github_tools], [notebook] and [handoff_to_user]; no
    tool occurs twice, and every agent [run_agent] builds is given
    exactly this list. *)
Theorem tool_registry_fixed :
  ∃ l : list tool,
    _get_all_tools = (Returned l, [])
    ∧ l = [ str_replace_based_edit_tool; shell; http_request;
            create_issue; get_issue; update_issue; list_issues;
            add_issue_comment; get_issue_comments;
            create_pull_request; get_pull_request; update_pull_request;
            list_pull_requests; get_pr_review_and_comments;
            reply_to_review_comment; notebook; handoff_to_user ]
    ∧ length l = 17%nat
    ∧ NoDup l
    ∧ map imported_from l
      = [mod_str_replace_based_edit_tool; mod_strands_tools; mod_strands_tools]
        ++ replicate 12 mod_github_tools
        ++ [mod_notebook; mod_handoff_to_user]
    ∧ ∀ (w : World) (env : gmap string str) (query : str),
        Forall (λ a, tools a = l)
               (agents_built (trace_of (run_agent w env query))).
Proof.
  eexists. split; [reflexivity|]. split; [reflexivity|].
  split; [reflexivity|]. split; [|split; [reflexivity|]].
  - compute_done.
  - intros w env query.
    destruct (agents_built_run_agent w env query) as [-> | ->];
      repeat constructor.
Qed.

(** C8. A run builds at most one model (exactly one once the client
    configuration is built); its additional request fields hold a
    thinking budget of 8000 tokens and the beta flag
    "interleaved-thinking-2025-05-14"; the agent is built on and invoked
    with that same model, and the invocation itself takes the query and
    nothing else. *)
Theorem reasoning_budget_is_session_configuration
    (w : World) (env : gmap string str) (query : str) :
  (length (models_built (trace_of (run_agent w env query))) ≤ 1)%nat
  ∧ Forall (λ m, thinking_budget m = Some (VInt 8000)
                 ∧ anthropic_beta m
                   = Some (VList [VStr (lit "interleaved-thinking-2025-05-14")]))
           (models_built (trace_of (run_agent w env query)))
  ∧ Forall (λ a, model a ∈ models_built (trace_of (run_agent w env query)))
           (agents_built (trace_of (run_agent w env query)))
  ∧ Forall (λ call,
              call.1 ∈ agents_built (trace_of (run_agent w env query))
              ∧ thinking_budget (model call.1) = Some (VInt 8000)
              ∧ anthropic_beta (model call.1)
                = Some (VList [VStr (lit "interleaved-thinking-2025-05-14")]))
           (invocations (trace_of (run_agent w env query)))
  ∧ (Config_raises w built_config = None ↔
     length (models_built (trace_of (run_agent w env query))) = 1%nat).
Proof.
  split_run_agent w env query; cbn;
    repeat match goal with
           | |- _ ∧ _ => split
           | |- _ ↔ _ => split; try done
           | |- Forall _ [] => constructor
           | |- Forall _ (_ :: _) => constructor
           | |- _ ∈ [_] => apply list_elem_of_singleton; reflexivity
           | |- (_ ≤ _)%nat => lia
           | |- _ = _ => reflexivity
           end.
Qed.

(** The three markers differ in their first character, so no log line
    is two of them at once. *)
Lemma line_error_not_running (e : BaseException) (q : str) :
  line_error e ≠ line_running q.
Proof. discriminate. Qed.

Lemma line_error_not_completed (e : BaseException) :
  line_error e ≠ line_completed.
Proof. discriminate. Qed.

Lemma line_completed_not_running (q : str) : line_completed ≠ line_running q.
Proof. discriminate. Qed.

(** Settles membership of a marker in a computed console output. *)
Ltac not_printed :=
  repeat first
    [ progress intros
    | match goal with
      | H : _ ∈ [] |- _ => apply elem_of_nil in H; destruct H
      | H : _ ∈ _ :: _ |- _ => apply elem_of_cons in H; destruct H as [H|H]
      | H : line_error _ = line_running _ |- _ =>
          destruct (line_error_not_running _ _ H)
      | H : line_error _ = line_completed |- _ =>
          destruct (line_error_not_completed _ H)
      | H : line_completed = line_running _ |- _ =>
          destruct (line_completed_not_running _ H)
      | H : line_completed = line_error _ |- _ =>
          symmetry in H; destruct (line_error_not_completed _ H)
      end ].

(** C5, as the code has it.  When the agent invocation returns,
    [run_agent] prints "Agent completed successfully" last and returns
    the value.  When an exception that is an instance of [Exception]
    leaves the body, [run_agent] prints the error line for it last, never
    the completion line, and raises that same exception.  An exception
    outside [Exception] ([KeyboardInterrupt], [SystemExit],
    [GeneratorExit]) is raised unchanged too, and neither marker is
    printed for it. *)
Theorem run_agent_markers
    (w : World) (env : gmap string str) (query : str) :
  let r := run_agent w env query in
  (match outcome_of r with
  | Returned v =>
      last (stdout (trace_of r)) = Some line_completed
      ∧ invocations (trace_of r) = [(built_agent env, query)]
      ∧ Agent_result w (built_agent env) query = Returned v
  | Raised e =>
      (line_completed ∉ stdout (trace_of r))
      ∧ (if isinstance_Exception e
         then last (stdout (trace_of r)) = Some (line_error e)
         else ∀ e', line_error e' ∉ stdout (trace_of r))
   end)
  ∧ Forall (λ call,
              match Agent_result w call.1 call.2 with
              | Returned v => outcome_of r = Returned v
              | Raised e => outcome_of r = Raised e
              end)
           (invocations (trace_of r)).
Proof.
  intros r. subst r.
  split_run_agent w env query;
    cbn -[line_running line_completed line_error];
    repeat match goal with
           | H : isinstance_Exception ?e = _ |- _ => progress rewrite H
           | H : Agent_result _ _ _ = _ |- _ => progress rewrite H
           | |- _ ∧ _ => split
           | |- Forall _ [] => constructor
           | |- Forall _ (_ :: _) =>
               constructor; cbn -[line_running line_completed line_error]
           | |- _ = _ => reflexivity
           | |- _ ∉ _ => intros ?Hin; not_printed
           | |- ∀ _, _ => intros ?e
           end.
Qed.

(** C5 fails as stated: a [KeyboardInterrupt] during the invocation
    leaves [run_agent] with the "Running agent" line as the only output;
    no error line is printed for it. *)
Lemma interrupt_leaves_no_error_marker :
  outcome_of (run_agent (world_answering (Raised interrupt)) ∅ (lit "triage"))
    = Raised interrupt
  ∧ stdout (trace_of (run_agent (world_answering (Raised interrupt)) ∅
                                (lit "triage")))
    = [line_running (lit "triage")]
  ∧ line_error interrupt
      ∉ stdout (trace_of (run_agent (world_answering (Raised interrupt)) ∅
                                    (lit "triage"))).
Proof.
  split; [reflexivity|]. split; [reflexivity|].
  intros Hin. apply list_elem_of_singleton in Hin. discriminate Hin.
Qed.

(** A throttling error, an instance of [Exception], is reported and
    raised again. *)
Example throttled_is_reported :
  run_agent (world_answering (Raised throttled)) ∅ (lit "triage")
  = (Raised throttled,
     [ Config_init built_config; BedrockModel_init built_model;
       Agent_init (built_agent ∅); Print (line_running (lit "triage"));
       Agent_call (built_agent ∅) (lit "triage");
       Print (line_error throttled) ]).
Proof. reflexivity. Qed.

(** C4, as the code has it.  [run_agent] returns to its caller the very
    value the agent invocation returned; [main] drops it: whenever
    [main] returns, it returns [None], also after a successful run. *)
Theorem run_agent_returns_result_main_returns_None
    (w : World) (env : gmap string str) :
  (∀ query v,
     outcome_of (run_agent w env query) = Returned v ↔
     Config_raises w built_config = None
     ∧ BedrockModel_raises w built_model = None
     ∧ Agent_raises w (built_agent env) = None
     ∧ Agent_result w (built_agent env) query = Returned v)
  ∧ (∀ v, outcome_of (main w env) = Returned v → v = VNone)
  ∧ (∀ task v,
       env !! "INPUT_TASK_PROMPT"%string = Some task → task ≠ [] →
       outcome_of (run_agent w env task) = Returned v →
       outcome_of (main w env) = Returned VNone).
Proof.
  split; [|split].
  - intros query v.
    split_run_agent w env query; split;
      first [ discriminate
            | intros (? & ? & ? & ?); congruence
            | intros [= ->]; auto ].
  - intros v. unfold main.
    destruct (os_getenv env "INPUT_TASK_PROMPT" []) as [|c task]; cbn.
    + now intros [= <-].
    + destruct (run_agent w env (c :: task)) as [[r|e] t]; cbn.
      * now intros [= <-].
      * discriminate.
  - intros task v Hget Hne Hrun.
    rewrite (main_with_task w env task Hget Hne). cbn.
    now rewrite Hrun.
Qed.

Lemma run_agent_returns_result_main_returns_None_witness :
  env_of (lit "list open issues") !! "INPUT_TASK_PROMPT"%string
    = Some (lit "list open issues")
  ∧ lit "list open issues" ≠ []
  ∧ outcome_of (run_agent (world_answering (Returned (VStr (lit "3 open issues"))))
                          (env_of (lit "list open issues"))
                          (lit "list open issues"))
    = Returned (VStr (lit "3 open issues"))
  ∧ outcome_of (main (world_answering (Returned (VStr (lit "3 open issues"))))
                     (env_of (lit "list open issues")))
    = Returned VNone.
Proof.
  split; [reflexivity|]. split; [discriminate|]. split; [reflexivity|].
  exact (proj2 (proj2 (run_agent_returns_result_main_returns_None
                         (world_answering (Returned (VStr (lit "3 open issues"))))
                         (env_of (lit "list open issues"))))
               (lit "list open issues") (VStr (lit "3 open issues"))
               eq_refl ltac:(discriminate) eq_refl).
Defined.

(** C4 fails as stated: the agent answers "3 open issues" and [main]
    returns [None], not the answer. *)
Lemma main_drops_agent_result :
  invocations
    (trace_of (main (world_answering (Returned (VStr (lit "3 open issues"))))
                    (env_of (lit "list open issues"))))
    = [(built_agent (env_of (lit "list open issues")), lit "list open issues")]
  ∧ Agent_result (world_answering (Returned (VStr (lit "3 open issues"))))
                 (built_agent (env_of (lit "list open issues")))
                 (lit "list open issues")
    = Returned (VStr (lit "3 open issues"))
  ∧ outcome_of (main (world_answering (Returned (VStr (lit "3 open issues"))))
                     (env_of (lit "list open issues")))
    ≠ Returned (VStr (lit "3 open issues")).
Proof.
  split; [reflexivity|]. split; [reflexivity|]. discriminate.
Qed.

(** A complete successful run, event by event. *)
Example main_success_trace :
  main (world_answering (Returned (VStr (lit "3 open issues"))))
       (env_of (lit "list open issues"))
  = (Returned VNone,
     banner (lit "list open issues")
     ++ [ Config_init built_config; BedrockModel_init built_model;
          Agent_init (built_agent (env_of (lit "list open issues")));
          Print (line_running (lit "list open issues"));
          Agent_call (built_agent (env_of (lit "list open issues")))
                     (lit "list open issues");
          Print line_completed ]).
Proof. reflexivity. Qed.

(** An exception of the agent reaches the caller of [main]. *)
Example main_propagates_error :
  outcome_of (main (world_answering (Raised throttled))
                   (env_of (lit "list open issues")))
  = Raised throttled.
Proof. reflexivity. Qed.

(** * Further properties of the script *)

(** [main] along the value of the task variable. *)
Lemma main_cases (w : World) (env : gmap string str) :
  main w env =
  match os_getenv env "INPUT_TASK_PROMPT" [] with
  | [] => (Returned VNone, [Print line_no_task])
  | c :: task =>
      (match outcome_of (run_agent w env (c :: task)) with
       | Returned _ => Returned VNone
       | Raised e => Raised e
       end, banner (c :: task) ++ trace_of (run_agent w env (c :: task)))
  end.
Proof.
  unfold main.
  destruct (os_getenv env "INPUT_TASK_PROMPT" []) as [|c task]; [reflexivity|].
  destruct (run_agent w env (c :: task)) as [[v|e] t];
    cbn [bind print emit ret outcome_of trace_of fst snd app banner].
  - now rewrite app_nil_r.
  - reflexivity.
Qed.

Lemma last_stdout_banner_app (task : str) (t : list event) (l : str) :
  last (stdout t) = Some l → last (stdout (banner task ++ t)) = Some l.
Proof.
  intros Hlast. rewrite stdout_app.
  destruct (stdout t) as [|x xs]; [discriminate Hlast|].
  now rewrite last_app_cons.
Qed.

(** An instance of [Exception] that leaves [run_agent] was reported on
    the last line printed. *)
Lemma run_agent_raised_last_line
    (w : World) (env : gmap string str) (q : str) (exc : BaseException) :
  outcome_of (run_agent w env q) = Raised exc →
  isinstance_Exception exc = true →
  last (stdout (trace_of (run_agent w env q))) = Some (line_error exc).
Proof.
  split_run_agent w env q; intros Hout Hexc;
    first [ discriminate Hout
          | injection Hout as <-; first [reflexivity | congruence] ].
Qed.

(** X1. [main] adds no error handling of its own: it raises [e]
    exactly when the task is non-empty and [run_agent] raises [e] on
    it; otherwise it returns [None].  When the exception is an instance
    of [Exception], the last line [main] printed is the error line for
    it. *)
Theorem main_fails_exactly_when_run_agent_fails
    (w : World) (env : gmap string str) :
  let task := os_getenv env "INPUT_TASK_PROMPT" [] in
  (∀ e, outcome_of (main w env) = Raised e ↔
        task ≠ [] ∧ outcome_of (run_agent w env task) = Raised e)
  ∧ (outcome_of (main w env) = Returned VNone ↔
        task = [] ∨ ∃ v, outcome_of (run_agent w env task) = Returned v)
  ∧ (∀ e, outcome_of (main w env) = Raised e →
        isinstance_Exception e = true →
        last (stdout (trace_of (main w env))) = Some (line_error e)).
Proof.
  intros task. subst task. rewrite main_cases.
  destruct (os_getenv env "INPUT_TASK_PROMPT" []) as [|c task].
  - cbn [outcome_of trace_of fst snd]. split; [|split].
    + intros e. split; [discriminate | intros [Hne _]; done].
    + split; auto.
    + discriminate.
  - pose proof (run_agent_raised_last_line w env (c :: task)) as Hmark.
    cbn [outcome_of trace_of fst snd].
    destruct (outcome_of (run_agent w env (c :: task))) as [v|e'].
    + split; [|split].
      * intros e. split; [discriminate | intros [_ H]; discriminate H].
      * split; eauto.
      * discriminate.
    + split; [|split].
      * intros e. split; [intros [= ->]; done | intros [_ [= ->]]; done].
      * split; [discriminate | intros [H | [v H]]; discriminate H].
      * intros e [= ->] Hexc. apply last_stdout_banner_app.
        now apply Hmark.
Qed.

Lemma main_fails_exactly_when_run_agent_fails_witness :
  outcome_of (main (world_answering (Raised throttled))
                   (env_of (lit "triage"))) = Raised throttled
  ∧ isinstance_Exception throttled = true
  ∧ last (stdout (trace_of (main (world_answering (Raised throttled))
                                 (env_of (lit "triage")))))
    = Some (line_error throttled).
Proof.
  split; [reflexivity|]. split; [reflexivity|].
  exact (proj2 (proj2 (main_fails_exactly_when_run_agent_fails
                         (world_answering (Raised throttled))
                         (env_of (lit "triage"))))
               throttled eq_refl eq_refl).
Defined.

(** X2. [run_agent] stops at the first collaborator that raises: a
    failing [Config] leaves no model, agent or invocation; a failing
    [BedrockModel] leaves no agent or invocation; a failing [Agent]
    leaves no invocation; in each case that exception is the one
    [run_agent] raises.  The agent is invoked exactly when all three
    constructors succeed, whatever the query, the empty one included. *)
Theorem run_agent_stops_at_first_failure
    (w : World) (env : gmap string str) (query : str) :
  let r := run_agent w env query in
  (∀ exc, Config_raises w built_config = Some exc →
      outcome_of r = Raised exc
      ∧ models_built (trace_of r) = []
      ∧ agents_built (trace_of r) = []
      ∧ invocations (trace_of r) = [])
  ∧ (∀ exc, Config_raises w built_config = None →
      BedrockModel_raises w built_model = Some exc →
      outcome_of r = Raised exc
      ∧ agents_built (trace_of r) = []
      ∧ invocations (trace_of r) = [])
  ∧ (∀ exc, Config_raises w built_config = None →
      BedrockModel_raises w built_model = None →
      Agent_raises w (built_agent env) = Some exc →
      outcome_of r = Raised exc
      ∧ invocations (trace_of r) = [])
  ∧ (invocations (trace_of r) = [(built_agent env, query)] ↔
      Config_raises w built_config = None
      ∧ BedrockModel_raises w built_model = None
      ∧ Agent_raises w (built_agent env) = None).
Proof.
  intros r. subst r. split; [|split; [|split]].
  - intros exc Hc. rewrite run_agent_cases, Hc. unfold failed.
    destruct (isinstance_Exception exc); repeat split.
  - intros exc Hc Hm. rewrite run_agent_cases, Hc, Hm. unfold failed.
    destruct (isinstance_Exception exc); repeat split.
  - intros exc Hc Hm Ha. rewrite run_agent_cases, Hc, Hm. cbv zeta.
    rewrite Ha. unfold failed.
    destruct (isinstance_Exception exc); repeat split.
  - split_run_agent w env query; cbn; split;
      first [ discriminate
            | intros (? & ? & ?); discriminate
            | auto ].
Qed.

Lemma run_agent_stops_at_first_failure_witness :
  Config_raises (world_rejecting_config bad_config) built_config
    = Some bad_config
  ∧ outcome_of (run_agent (world_rejecting_config bad_config) ∅ (lit "triage"))
    = Raised bad_config
  ∧ models_built
      (trace_of (run_agent (world_rejecting_config bad_config) ∅ (lit "triage")))
    = []
  ∧ agents_built
      (trace_of (run_agent (world_rejecting_config bad_config) ∅ (lit "triage")))
    = []
  ∧ invocations
      (trace_of (run_agent (world_rejecting_config bad_config) ∅ (lit "triage")))
    = [].
Proof.
  split; [reflexivity|].
  exact (proj1 (run_agent_stops_at_first_failure
                  (world_rejecting_config bad_config) ∅ (lit "triage"))
               bad_config eq_refl).
Defined.

(** The empty query is passed on like any other. *)
Example run_agent_empty_query :
  invocations (trace_of (run_agent (world_answering (Returned VNone)) ∅ []))
  = [(built_agent ∅, [])].
Proof. reflexivity. Qed.

Lemma built_agent_reads_system_prompt (env1 env2 : gmap string str) :
  env1 !! "INPUT_SYSTEM_PROMPT"%string = env2 !! "INPUT_SYSTEM_PROMPT"%string →
  built_agent env1 = built_agent env2.
Proof. intros H. unfold built_agent, os_getenv. now rewrite H. Qed.

(** X3. The script itself reads two variables and no other.  Take two
    runs whose collaborators answer alike (what [Config],
    [BedrockModel], [Agent] and the agent themselves read from the
    environment is theirs, and is part of that assumption): if the
    environments agree on [INPUT_SYSTEM_PROMPT], [run_agent] does the
    same in both, event for event; if they agree on [INPUT_TASK_PROMPT]
    as well, so does [main].  No other variable, one named after a
    module constant included, changes what the script constructs, prints
    or passes on. *)
Theorem script_reads_only_its_two_inputs
    (w1 w2 : World) (env1 env2 : gmap string str) :
  same_answers w1 w2 →
  env1 !! "INPUT_SYSTEM_PROMPT"%string = env2 !! "INPUT_SYSTEM_PROMPT"%string →
  (∀ query, run_agent w1 env1 query = run_agent w2 env2 query)
  ∧ (env1 !! "INPUT_TASK_PROMPT"%string = env2 !! "INPUT_TASK_PROMPT"%string →
     main w1 env1 = main w2 env2).
Proof.
  intros (Hc & Hm & Ha & Hr) Hsp.
  assert (Hrun : ∀ query, run_agent w1 env1 query = run_agent w2 env2 query).
  { intros query. rewrite !run_agent_cases. cbv zeta.
    rewrite (built_agent_reads_system_prompt env1 env2 Hsp).
    now rewrite Hc, Hm, Ha, Hr. }
  split; [exact Hrun|].
  intros Htask. rewrite !main_cases. unfold os_getenv. rewrite Htask.
  destruct (env2 !! "INPUT_TASK_PROMPT"%string) as [[|c task]|];
    try reflexivity.
  now rewrite Hrun.
Qed.

Lemma script_reads_only_its_two_inputs_witness :
  same_answers (world_answering (Returned VNone))
               (world_answering (Returned VNone))
  ∧ env_ci !! "INPUT_SYSTEM_PROMPT"%string
    = env_ci_extra !! "INPUT_SYSTEM_PROMPT"%string
  ∧ env_ci !! "INPUT_TASK_PROMPT"%string
    = env_ci_extra !! "INPUT_TASK_PROMPT"%string
  ∧ main (world_answering (Returned VNone)) env_ci
    = main (world_answering (Returned VNone)) env_ci_extra.
Proof.
  split; [repeat split|]. split; [reflexivity|]. split; [reflexivity|].
  exact (proj2 (script_reads_only_its_two_inputs
                  (world_answering (Returned VNone))
                  (world_answering (Returned VNone)) env_ci env_ci_extra
                  ltac:(repeat split) eq_refl) eq_refl).
Defined.

(** The region of the model built is the module constant in both. *)
Example region_has_no_override :
  map region_name
    (models_built (trace_of (main (world_answering (Returned VNone))
                                  env_ci_extra)))
  = [lit "ap-northeast-1"].
Proof. reflexivity. Qed.

(** X4. The two log lines that quote the input are bounded: the "Task"
    line has 9 characters around at most 200 of the task, the "Running
    agent" line 31 around at most 100 of the query.  An input within
    the bound is quoted whole, and the "..." follows it all the same. *)
Theorem log_lines_are_bounded (s : str) :
  length (line_task s) = (9 + min 200 (length s))%nat
  ∧ length (line_running s) = (31 + min 100 (length s))%nat
  ∧ ((length s ≤ 200)%nat → line_task s = lit "Task: " ++ s ++ lit "...")
  ∧ ((length s ≤ 100)%nat →
     line_running s
     = [0x1F916%N] ++ lit " Running agent with query: " ++ s ++ lit "...").
Proof.
  unfold line_task, line_running, slice_to.
  split; [|split; [|split]].
  - rewrite !length_app, length_take. cbn. lia.
  - rewrite !length_app, length_take. cbn. lia.
  - intros Hlen. now rewrite take_ge by lia.
  - intros Hlen. now rewrite take_ge by lia.
Qed.

Lemma log_lines_are_bounded_witness :
  (length (lit "list open issues") ≤ 200)%nat
  ∧ line_task (lit "list open issues") = lit "Task: list open issues...".
Proof.
  split; [cbn; lia|].
  exact (proj1 (proj2 (proj2 (log_lines_are_bounded (lit "list open issues"))))
               ltac:(cbn; lia)).
Defined.

(** X5. The log lines tell two inputs apart exactly as far as they are
    quoted: two tasks give the same "Task" line if and only if their
    first 200 characters agree, and two queries the same "Running
    agent" line if and only if their first 100 characters agree. *)
Theorem log_lines_identify_prefix (s1 s2 : str) :
  (line_task s1 = line_task s2 ↔ take 200 s1 = take 200 s2)
  ∧ (line_running s1 = line_running s2 ↔ take 100 s1 = take 100 s2).
Proof.
  unfold line_task, line_running, slice_to. split; split.
  - intros H. apply app_inv_head in H. now apply app_inv_tail in H.
  - now intros ->.
  - intros H. apply app_inv_head in H. apply app_inv_head in H.
    now apply app_inv_tail in H.
  - now intros ->.
Qed.

(** X6. What the banner announces is what is used: on a non-empty
    task, lines 4 and 5 of the output are "Model: " and "Region: "
    followed by the [model_id] and [region_name] of every model the run
    builds, and that model is built with [max_tokens = 64000]. *)
Theorem banner_reports_the_model_built
    (w : World) (env : gmap string str) (task : str) :
  env !! "INPUT_TASK_PROMPT"%string = Some task → task ≠ [] →
  Forall (λ m,
            stdout (trace_of (main w env)) !! 3%nat
              = Some (lit "Model: " ++ model_id m)
            ∧ stdout (trace_of (main w env)) !! 4%nat
              = Some (lit "Region: " ++ region_name m)
            ∧ max_tokens m = 64000)
         (models_built (trace_of (main w env)))
  ∧ (Config_raises w built_config = None →
     length (models_built (trace_of (main w env))) = 1%nat).
Proof.
  intros Hget Hne. rewrite (main_with_task w env task Hget Hne).
  cbn [trace_of snd].
  assert (Hmodels : models_built (banner task ++ trace_of (run_agent w env task))
                    = models_built (trace_of (run_agent w env task))).
  { unfold models_built. now rewrite omap_app. }
  rewrite Hmodels, stdout_app. split.
  - destruct (models_built_run_agent w env task) as [-> | ->];
      repeat constructor.
  - intros Hc. rewrite run_agent_cases, Hc. unfold failed. cbv zeta.
    repeat case_match; reflexivity.
Qed.

Lemma banner_reports_the_model_built_witness :
  env_of (lit "triage") !! "INPUT_TASK_PROMPT"%string = Some (lit "triage")
  ∧ lit "triage" ≠ []
  ∧ length (models_built
              (trace_of (main (world_answering (Returned VNone))
                              (env_of (lit "triage"))))) = 1%nat.
Proof.
  split; [reflexivity|]. split; [discriminate|].
  exact (proj2 (banner_reports_the_model_built
                  (world_answering (Returned VNone)) (env_of (lit "triage"))
                  (lit "triage") eq_refl ltac:(discriminate)) eq_refl).
Defined.

(** X7. The run prints at most two lines.  The "Running agent" line is
    printed exactly when the agent is invoked, the completion line
    exactly when [run_agent] returns, and an error line exactly when it
    raises an instance of [Exception]. *)
Theorem run_agent_output_shape
    (w : World) (env : gmap string str) (query : str) :
  let r := run_agent w env query in
  (length (stdout (trace_of r)) ≤ 2)%nat
  ∧ (line_running query ∈ stdout (trace_of r) ↔
     invocations (trace_of r) = [(built_agent env, query)])
  ∧ (line_completed ∈ stdout (trace_of r) ↔
     ∃ v, outcome_of r = Returned v)
  ∧ ((∃ exc, line_error exc ∈ stdout (trace_of r)) ↔
     ∃ exc, outcome_of r = Raised exc ∧ isinstance_Exception exc = true).
Proof.
  intros r. subst r.
  split_run_agent w env query;
    cbn -[line_running line_completed line_error];
    (split; [lia|]); repeat split;
    repeat match goal with
           | |- _ → _ => intros ?H
           | H : ∃ _, _ |- _ => destruct H as [? H]
           | H : _ ∧ _ |- _ => destruct H as [? ?]
           | H : _ ∈ [] |- _ => apply elem_of_nil in H; destruct H
           | H : _ ∈ _ :: _ |- _ => apply elem_of_cons in H; destruct H as [H|H]
           | H : Raised _ = Raised _ |- _ => injection H as ->
           | H : @eq (list N) _ _ |- _ => discriminate H
           | H : @eq (outcome pyval) _ _ |- _ => discriminate H
           | H : @eq (list (Agent * list N)) _ _ |- _ => discriminate H
           end;
    try congruence;
    try reflexivity;
    try (eexists; split; [reflexivity | assumption]);
    try (eexists; reflexivity);
    try (eexists; apply list_elem_of_here);
    try (eexists; apply list_elem_of_further, list_elem_of_here);
    try apply list_elem_of_here;
    try apply list_elem_of_further, list_elem_of_here.
Qed.



(** Unset and empty give the same run. *)
Example main_unset_or_empty :
  main (world_answering (Returned VNone)) ∅
  = main (world_answering (Returned VNone)) (env_of []).
Proof. reflexivity. Qed.

(** X9. An exception outside [Exception] (an interrupt, a
    [SystemExit]) passes through [run_agent] and [main] unreported:
    when [main] raises it, no error line and no completion line was
    printed anywhere in the run. *)
Theorem main_leaves_interrupts_unreported
    (w : World) (env : gmap string str) (exc : BaseException) :
  outcome_of (main w env) = Raised exc →
  isinstance_Exception exc = false →
  (∀ e', line_error e' ∉ stdout (trace_of (main w env)))
  ∧ line_completed ∉ stdout (trace_of (main w env)).
Proof.
  rewrite main_cases.
  destruct (os_getenv env "INPUT_TASK_PROMPT" []) as [|c task];
    [discriminate|].
  cbn [outcome_of trace_of fst snd]. rewrite stdout_app.
  split_run_agent w env (c :: task);
    cbn -[line_running line_completed line_error line_rule line_starting
          line_model line_region line_task];
    intros Hout Hexc; try discriminate Hout;
    injection Hout as ->; try congruence;
    (split; [intros e'|]); intros Hin;
    repeat match goal with
           | H : _ ∈ [] |- _ => apply elem_of_nil in H; destruct H
           | H : _ ∈ _ :: _ |- _ => apply elem_of_cons in H; destruct H as [H|H]
           | H : @eq (list N) _ _ |- _ => discriminate H
           end.
Qed.

Lemma main_leaves_interrupts_unreported_witness :
  outcome_of (main (world_answering (Raised interrupt)) (env_of (lit "triage")))
    = Raised interrupt
  ∧ isinstance_Exception interrupt = false
  ∧ line_error interrupt
      ∉ stdout (trace_of (main (world_answering (Raised interrupt))
                               (env_of (lit "triage")))).
Proof.
  split; [reflexivity|]. split; [reflexivity|].
  exact (proj1 (main_leaves_interrupts_unreported
                  (world_answering (Raised interrupt)) (env_of (lit "triage"))
                  interrupt eq_refl eq_refl) interrupt).
Defined.

(** X10. The client configuration reaches the model.  [run_agent] calls
    the [Config] constructor exactly once, with [read_timeout = 900],
    [connect_timeout = 900] and
    [retries = {"max_attempts": 3, "mode": "adaptive"}].  When that call
    succeeds, exactly one [BedrockModel] is constructed and this
    configuration is its [boto_client_config]; when it raises, none is.
    Every agent built or invoked carries a model with this
    configuration, and the agent is invoked with it whenever the three
    constructors succeed. *)
Theorem client_config_reaches_the_model
    (w : World) (env : gmap string str) (query : str) :
  let t := trace_of (run_agent w env query) in
  ∃ c : Config,
    configs_built t = [c]
    ∧ read_timeout c = 900
    ∧ connect_timeout c = 900
    ∧ retries c = VDict [ ("max_attempts"%string, VInt 3);
                          ("mode"%string, VStr (lit "adaptive")) ]
    ∧ (Config_raises w c = None →
       ∃ m, models_built t = [m] ∧ boto_client_config m = c
            ∧ (BedrockModel_raises w m = None →
               ∃ a, agents_built t = [a] ∧ model a = m
                    ∧ (Agent_raises w a = None →
                       invocations t = [(a, query)])))
    ∧ (Config_raises w c ≠ None → models_built t = [])
    ∧ Forall (λ a, boto_client_config (model a) = c) (agents_built t)
    ∧ Forall (λ call, boto_client_config (model call.1) = c) (invocations t).
Proof.
  intros t. subst t. exists built_config.
  split_run_agent w env query;
    cbn -[line_running line_completed line_error];
    repeat match goal with
           | |- _ ∧ _ => split
           | |- Forall _ [] => constructor
           | |- Forall _ (_ :: _) => constructor
           | |- _ = _ → _ => intros ?H; try discriminate
           | |- _ ≠ _ → _ => intros ?H; try done
           | |- ∃ m : BedrockModel, _ => exists built_model
           | |- ∃ a : Agent, _ => exists (built_agent env)
           | |- _ = _ => first [reflexivity | congruence]
           end.
Qed.
